(** * Bhopal BRTS chatbot: the question-answering pipeline of utils/chatbot.py

    The development embeds [utils/chatbot.py]: the credential checks of the
    embedding function and of the generation step, the collection loader, the
    retriever, the prompt formatter and [ask_question].

    Python strings are represented by [string], read as the UTF-8 bytes of
    the text.  Every string operation the code performs (replacing the ASCII
    characters ['], the double quote and the line feed, joining, splitting a
    format template at ASCII braces) acts on those bytes exactly as it acts
    on the code points, since a byte below 128 never occurs inside a
    multi-byte sequence. *)

From Stdlib Require Import String Ascii List ZArith Bool Lia Permutation.
Import ListNotations.
Open Scope list_scope.
Open Scope string_scope.

(** ** Python values and exceptions *)

(** The values the optional [current_location] argument takes. *)
Inductive pyval : Type :=
| PyNone
| PyStr (s : string).

(** The exception classes that the code, [str.format] and list/dict
    subscripts raise; a third-party call may raise any of them. *)
Inductive exn : Type :=
| ValueError (msg : string)
| KeyError (key : string)
| IndexError (msg : string)
| TypeError (msg : string)
| LibraryError (msg : string).

(** Outcome of running a piece of Python: a value, a raised exception, or
    [Unmodelled] when the run leaves the modelled fragment of [str.format]
    (conversions, format specs, attribute and index access, positional
    numbering by digits). *)
Inductive result (A : Type) : Type :=
| Ok (a : A)
| Raise (e : exn)
| Unmodelled.
Arguments Ok {A} a.
Arguments Raise {A} e.
Arguments Unmodelled {A}.

(** ** Characters and strings *)

Definition apostrophe : ascii := "'"%char.
Definition dquote : ascii := "034"%char.
Definition newline : ascii := "010"%char.
Definition lbrace : ascii := "{"%char.
Definition rbrace : ascii := "}"%char.

(** [s.replace(old, new)] for a one-character [old]: every occurrence, left
    to right. *)
Fixpoint str_replace (old : ascii) (new : string) (s : string) : string :=
  match s with
  | EmptyString => EmptyString
  | String c r =>
      if Ascii.eqb c old then new ++ str_replace old new r
      else String c (str_replace old new r)
  end.

(** [sep.join(parts)] with the empty separator, as in [String.concat]. *)
Definition str_join (parts : list string) : string :=
  String.concat EmptyString parts.

(** [c in s] for a character. *)
Fixpoint occurs (c : ascii) (s : string) : bool :=
  match s with
  | EmptyString => false
  | String d r => Ascii.eqb d c || occurs c r
  end.

(** [sub in s]: [sub] is a contiguous part of [s]. *)
Definition Substring (sub s : string) : Prop :=
  exists a b, s = a ++ sub ++ b.

(** ** [str.format] with keyword arguments

    The template is cut left to right into literal runs and replacement
    fields, as CPython's markup iterator does; the cut stops at the first
    malformed place. *)

Inductive token : Type :=
| TLit (s : string)
| TField (name : string)
| TErr (e : exn)
| TUnmodelled.

Inductive scan_mode : Type :=
| InLit (acc : string)
| InField (acc : string).

Definition snoc (s : string) (c : ascii) : string := s ++ String c EmptyString.

Definition is_digit (c : ascii) : bool :=
  let n := nat_of_ascii c in (48 <=? n)%nat && (n <=? 57)%nat.

Fixpoint all_chars (p : ascii -> bool) (s : string) : bool :=
  match s with
  | EmptyString => true
  | String c r => p c && all_chars p r
  end.

(** A field name the model resolves: ASCII only, no attribute access. *)
Definition name_char (c : ascii) : bool :=
  (nat_of_ascii c <? 128)%nat && negb (Ascii.eqb c "."%char).

(** What a replacement field [{name}] stands for once its closing brace is
    found.  With only keyword arguments passed, the automatically numbered
    field [{}] indexes the empty positional tuple. *)
Definition field_token (name : string) : token :=
  match name with
  | EmptyString =>
      TErr (IndexError "Replacement index 0 out of range for positional args tuple")
  | _ =>
      if negb (all_chars name_char name) then TUnmodelled
      else if all_chars is_digit name then TUnmodelled
      else TField name
  end.

Definition lit_token (acc : string) (rest : list token) : list token :=
  match acc with
  | EmptyString => rest
  | _ => TLit acc :: rest
  end.

Fixpoint markup (s : string) (m : scan_mode) : list token :=
  match s, m with
  | EmptyString, InLit acc => lit_token acc []
  | EmptyString, InField _ =>
      [TErr (ValueError "expected '}' before end of string")]
  | String c r, InLit acc =>
      if Ascii.eqb c lbrace then
        match r with
        | EmptyString =>
            [TErr (ValueError "Single '{' encountered in format string")]
        | String d r' =>
            if Ascii.eqb d lbrace then markup r' (InLit (snoc acc lbrace))
            else lit_token acc (markup r (InField EmptyString))
        end
      else if Ascii.eqb c rbrace then
        match r with
        | EmptyString =>
            [TErr (ValueError "Single '}' encountered in format string")]
        | String d r' =>
            if Ascii.eqb d rbrace then markup r' (InLit (snoc acc rbrace))
            else [TErr (ValueError "Single '}' encountered in format string")]
        end
      else markup r (InLit (snoc acc c))
  | String c r, InField acc =>
      if Ascii.eqb c rbrace then
        field_token acc :: markup r (InLit EmptyString)
      else if Ascii.eqb c lbrace then
        [TErr (ValueError "unexpected '{' in field name")]
      else if Ascii.eqb c "["%char || Ascii.eqb c "!"%char || Ascii.eqb c ":"%char
      then [TUnmodelled]
      else markup r (InField (snoc acc c))
  end.

Definition kwargs : Type := list (string * pyval).

Fixpoint kw_lookup (name : string) (kw : kwargs) : option pyval :=
  match kw with
  | [] => None
  | (k, v) :: r => if String.eqb k name then Some v else kw_lookup name r
  end.

(** [format(v, '')], what an empty format spec renders. *)
Definition py_str (v : pyval) : string :=
  match v with
  | PyNone => "None"
  | PyStr s => s
  end.

(** Rendering, left to right; the first failure wins. *)
Fixpoint render (ts : list token) (kw : kwargs) : result string :=
  match ts with
  | [] => Ok EmptyString
  | TLit s :: r =>
      match render r kw with
      | Ok out => Ok (s ++ out)
      | other => other
      end
  | TField name :: r =>
      match kw_lookup name kw with
      | None => Raise (KeyError name)
      | Some v =>
          match render r kw with
          | Ok out => Ok (py_str v ++ out)
          | other => other
          end
      end
  | TErr e :: _ => Raise e
  | TUnmodelled :: _ => Unmodelled
  end.

Definition str_format (template : string) (kw : kwargs) : result string :=
  render (markup template (InLit EmptyString)) kw.

(** ** The world outside the program

    Everything the code reaches through [os], [chromadb] and
    [google.generativeai]: the process environment, the state of the disk and
    of the hosted services, and the calls made so far. *)

Inductive Event : Type :=
| EvPersistentClient (path : string)
| EvGetCollection (name : string)
| EvQuery (query_texts : list string) (n_results : Z)
| EvConfigure (api_key : string)
| EvEmbedContent (model : string) (content : list string)
                 (task_type title : string)
| EvGenerateContent (model : string) (prompt : string).

(** The calls that go over the network. *)
Definition is_network (e : Event) : bool :=
  match e with
  | EvEmbedContent _ _ _ _ | EvGenerateContent _ _ => true
  | _ => false
  end.

Definition is_generation (e : Event) : bool :=
  match e with
  | EvGenerateContent _ _ => true
  | _ => false
  end.

(** The result of [Collection.query]; [documents] is absent when the caller
    excludes it, and holds one list of texts per query text otherwise. *)
Record QueryResult : Type := { documents : option (list (list string)) }.

(** The dictionary [genai.embed_content] returns, by its ["embedding"]
    entry. *)
Record EmbedResponse (V : Type) : Type := { embedding : list V }.
Arguments embedding {V} _.

(** The response of [generate_content]; its [text] accessor returns the text
    or raises. *)
Record GenerateContentResponse : Type := { text : result string }.

(** The third-party services, as functions of the external state. *)
Class External : Type := {
  Ext : Type;
  Vector : Type;
  Client : Type;
  Handle : Type;
  persistent_client : string -> Ext -> result Client * Ext;
  get_collection : Client -> string -> Ext -> result Handle * Ext;
  nearest : Handle -> list Vector -> Z -> Ext -> result QueryResult * Ext;
  embed_content :
    string -> list string -> string -> string -> Ext ->
    result (EmbedResponse Vector) * Ext;
  generate_content :
    string -> string -> Ext -> result GenerateContentResponse * Ext
}.

(** The constants module of the package, which [utils/chatbot.py] imports. *)
Class Constants : Type := { RAG_PROMPT_CONSTANT : string }.

Section Model.
Context {X : External} {K : Constants}.

Record World : Type := {
  environ : list (string * string);
  ext : Ext;
  trace : list Event
}.

(** Computations: a world in, an outcome and a world out. *)
Definition M (A : Type) : Type := World -> result A * World.

Definition ret {A} (a : A) : M A := fun w => (Ok a, w).
Definition raise {A} (e : exn) : M A := fun w => (Raise e, w).
Definition bind {A B} (m : M A) (k : A -> M B) : M B :=
  fun w =>
    match m w with
    | (Ok a, w') => k a w'
    | (Raise e, w') => (Raise e, w')
    | (Unmodelled, w') => (Unmodelled, w')
    end.
Definition lift {A} (r : result A) : M A := fun w => (r, w).

Definition log (e : Event) : M unit :=
  fun w => (Ok tt, {| environ := environ w; ext := ext w;
                      trace := (trace w ++ [e])%list |}).

(** A call into a service: recorded, then answered by the service. *)
Definition call {A} (e : Event) (f : Ext -> result A * Ext) : M A :=
  fun w =>
    let (r, x) := f (ext w) in
    (r, {| environ := environ w; ext := x;
           trace := (trace w ++ [e])%list |}).

Fixpoint env_lookup (name : string) (env : list (string * string))
  : option string :=
  match env with
  | [] => None
  | (k, v) :: r => if String.eqb k name then Some v else env_lookup name r
  end.

(** [os.getenv(name)] *)
Definition os_getenv (name : string) : M (option string) :=
  fun w => (Ok (env_lookup name (environ w)), w).

(** Truth value of an [os.getenv] result: [None] and the empty string are
    false. *)
Definition truthy (v : option string) : bool :=
  match v with
  | None => false
  | Some EmptyString => false
  | Some _ => true
  end.

Definition the_str (v : option string) : string :=
  match v with
  | Some s => s
  | None => EmptyString
  end.

Definition genai_configure (api_key : string) : M unit :=
  log (EvConfigure api_key).

Definition genai_embed_content (model : string) (content : list string)
           (task_type title : string) : M (EmbedResponse Vector) :=
  call (EvEmbedContent model content task_type title)
       (embed_content model content task_type title).

Definition missing_key_message : string :=
  "Gemini API Key not provided. Please provide GEMINI_API_KEY as an environment variable".

Notation "x <- m ;; k" := (bind m (fun x => k))
  (at level 61, m at next level, right associativity).
Notation "m ;;; k" := (bind m (fun _ => k))
  (at level 61, right associativity).

(** [GeminiEmbeddingFunction.__call__] *)
Definition GeminiEmbeddingFunction__call__ (input : list string)
  : M (list Vector) :=
  gemini_api_key <- os_getenv "GEMINI_API_KEY" ;;
  if negb (truthy gemini_api_key) then
    raise (ValueError missing_key_message)
  else
    genai_configure (the_str gemini_api_key) ;;;
    let model := "models/embedding-001" in
    let title := "Custom query" in
    r <- genai_embed_content model input "retrieval_document" title ;;
    ret (embedding r).

(** A loaded collection: the store's handle and the embedding function
    bound to it by [get_collection]. *)
Record Collection : Type := {
  handle : Handle;
  embedding_function : list string -> M (list Vector)
}.

(** [chromadb.PersistentClient(path=path)] *)
Definition chromadb_PersistentClient (path : string) : M Client :=
  call (EvPersistentClient path) (persistent_client path).

(** [client.get_collection(name=name, embedding_function=ef)] *)
Definition Client_get_collection (c : Client) (name : string)
           (ef : list string -> M (list Vector)) : M Collection :=
  h <- call (EvGetCollection name) (get_collection c name) ;;
  ret {| handle := h; embedding_function := ef |}.

(** [db.query(query_texts=..., n_results=...)]: the store embeds the query
    texts with the collection's embedding function and searches its index
    for the nearest stored documents.  An exception raised inside the
    embedding function is passed on as raised; releases of the store that
    append their own context to its message differ in that text only. *)
Definition Collection_query (db : Collection) (query_texts : list string)
           (n_results : Z) : M QueryResult :=
  log (EvQuery query_texts n_results) ;;;
  embeddings <- embedding_function db query_texts ;;
  fun w =>
    let (r, x) := nearest (handle db) embeddings n_results (ext w) in
    (r, {| environ := environ w; ext := x; trace := trace w |}).

(** The nested [__generate_answer] of [generate_answer]. *)
Definition __generate_answer (prompt : string) : M string :=
  gemini_api_key <- os_getenv "GEMINI_API_KEY" ;;
  if negb (truthy gemini_api_key) then
    raise (ValueError missing_key_message)
  else
    genai_configure (the_str gemini_api_key) ;;;
    let model := "gemini-1.5-flash" in
    answer <- call (EvGenerateContent model prompt)
                   (generate_content model prompt) ;;
    lift (text answer).

(** [load_chroma_collection] *)
Definition load_chroma_collection (path name : string) : M Collection :=
  chroma_client <- chromadb_PersistentClient path ;;
  Client_get_collection chroma_client name GeminiEmbeddingFunction__call__.

(** The subscript [[0]] on the [documents] entry. *)
Definition first_documents (r : QueryResult) : result (list string) :=
  match documents r with
  | None => Raise (TypeError "'NoneType' object is not subscriptable")
  | Some [] => Raise (IndexError "list index out of range")
  | Some (d :: _) => Ok d
  end.

(** [get_relevant_passage] *)
Definition get_relevant_passage (query : string) (db : Collection)
           (n_results : Z) : M (list string) :=
  r <- Collection_query db [query] n_results ;;
  lift (first_documents r).

(** The three chained [replace] calls of [make_rag_prompt]. *)
Definition escape (relevant_passage : string) : string :=
  str_replace newline " "
    (str_replace dquote EmptyString
       (str_replace apostrophe EmptyString relevant_passage)).

(** [make_rag_prompt] *)
Definition make_rag_prompt (query relevant_passage : string)
           (current_location : pyval) : result string :=
  let escaped := escape relevant_passage in
  str_format RAG_PROMPT_CONSTANT
    [("query", PyStr query); ("relevant_passage", PyStr escaped);
     ("current_location", current_location)].

(** [generate_answer] *)
Definition generate_answer (db : Collection) (query : string)
           (current_location : pyval) : M string :=
  relevant_text <- get_relevant_passage query db 5 ;;
  prompt <- lift (make_rag_prompt query (str_join relevant_text)
                                  current_location) ;;
  answer <- __generate_answer prompt ;;
  ret answer.

(** [ask_question], with [current_location] passed. *)
Definition ask_question (query : string) (current_location : pyval)
  : M string :=
  db <- load_chroma_collection "./chroma" "chatbot_rag_collection" ;;
  generate_answer db query current_location.

(** [ask_question(query)]: the parameter takes its default, [None]. *)
Definition ask_question_default (query : string) : M string :=
  ask_question query PyNone.

End Model.

(** ** Test doubles

    In-memory stand-ins for the store and the hosted model, used to run the
    pipeline on concrete inputs.  The external state counts the requests the
    hosted services have served. *)

Record StubConfig : Type := {
  stub_collections : list (string * list string);
  stub_reply : string -> result GenerateContentResponse
}.

Fixpoint stub_find (name : string) (cs : list (string * list string))
  : option (list string) :=
  match cs with
  | [] => None
  | (k, v) :: r => if String.eqb k name then Some v else stub_find name r
  end.

(** The store keeps its documents in relevance order and reports the first
    [n_results] of them for each query embedding. *)
Definition stub_external (cfg : StubConfig) : External := {|
  Ext := nat;
  Vector := Z;
  Client := string;
  Handle := list string;
  persistent_client := fun path x => (Ok path, x);
  get_collection := fun _ name x =>
    match stub_find name (stub_collections cfg) with
    | Some docs => (Ok docs, x)
    | None => (Raise (ValueError "Collection does not exist."), x)
    end;
  nearest := fun docs embeddings n_results x =>
    (Ok {| documents :=
             Some (map (fun _ => firstn (Z.to_nat n_results) docs)
                       embeddings) |}, x);
  embed_content := fun _ content _ _ x =>
    (Ok {| embedding := map (fun _ => 1%Z) content |}, S x);
  generate_content := fun _ prompt x =>
    match stub_reply cfg prompt with
    | Ok r => (Ok r, S x)
    | Raise e => (Raise e, S x)
    | Unmodelled => (Unmodelled, S x)
    end
|}.

(** A generation model that echoes its prompt. *)
Definition echo (prompt : string) : result GenerateContentResponse :=
  Ok {| text := Ok prompt |}.

(** A generation model whose text is empty. *)
Definition mute (prompt : string) : result GenerateContentResponse :=
  Ok {| text := Ok EmptyString |}.

Definition brts_docs : list string :=
  ["BRTS stands for Bus Rapid Transit System.";
   "It started in Bhopal in 2013."].

Definition brts_stub : External :=
  stub_external {| stub_collections := [("chatbot_rag_collection", brts_docs)];
                   stub_reply := echo |}.

Definition mute_stub : External :=
  stub_external {| stub_collections := [("chatbot_rag_collection", brts_docs)];
                   stub_reply := mute |}.

Definition six_docs : list string := ["d1"; "d2"; "d3"; "d4"; "d5"; "d6"].

Definition six_stub : External :=
  stub_external {| stub_collections := [("chatbot_rag_collection", six_docs)];
                   stub_reply := echo |}.

Definition empty_store_stub : External :=
  stub_external {| stub_collections := []; stub_reply := echo |}.

(** Modelled from the spec: the template text of the package's constants
    module, which is not among the sources at hand: instructions for a
    transit-system assistant, to answer only from the given passage and to
    use the location hint, with the three replacement fields that
    [make_rag_prompt] fills. *)
Definition spec_template : Constants := {|
  RAG_PROMPT_CONSTANT :=
    "You are a helpful assistant for the Bhopal BRTS bus system. Answer only from the passage. Use the current location if it is relevant. QUESTION: {query} PASSAGE: {relevant_passage} CURRENT LOCATION: {current_location} ANSWER:"
|}.

(** A template that names a field [make_rag_prompt] does not pass. *)
Definition bad_template : Constants := {|
  RAG_PROMPT_CONSTANT := "QUESTION: {question} PASSAGE: {relevant_passage}"
|}.

Definition stub_world (X : External) (env : list (string * string)) (x : @Ext X)
  : @World X :=
  {| environ := env; ext := x; trace := [] |}.

Definition stub_world_at (X : External) (env : list (string * string))
           (x : @Ext X) (t : list Event) : @World X :=
  {| environ := env; ext := x; trace := t |}.

Definition with_key : list (string * string) := [("GEMINI_API_KEY", "k-123")].

(** What each token of the template becomes once the three keyword
    arguments are filled in. *)
Definition fill (query passage location : string) (t : token) : string :=
  match t with
  | TLit s => s
  | TField name =>
      if String.eqb name "query" then query
      else if String.eqb name "relevant_passage" then passage
      else if String.eqb name "current_location" then location
      else EmptyString
  | _ => EmptyString
  end.

(** The tokens of the configured template. *)
Definition template_tokens {K : Constants} : list token :=
  markup RAG_PROMPT_CONSTANT (InLit EmptyString).

(** The sanitization, character by character. *)
Definition escape_char (c : ascii) : string :=
  if Ascii.eqb c apostrophe then EmptyString
  else if Ascii.eqb c dquote then EmptyString
  else if Ascii.eqb c newline then " "
  else String c EmptyString.

Fixpoint flat_map_chars (f : ascii -> string) (s : string) : string :=
  match s with
  | EmptyString => EmptyString
  | String c r => f c ++ flat_map_chars f r
  end.

(** The same world with another call history. *)
Definition set_trace {X : External} (w : World) (t : list Event) : World :=
  {| environ := environ w; ext := ext w; trace := t |}.

(** A computation that never reads the call history: run after a history
    [t], it does what it does from the empty history, with [t] in front. *)
Definition framed {X : External} {A} (m : M A) : Prop :=
  forall w,
    m w = (fst (m (set_trace w [])),
           {| environ := environ w;
              ext := ext (snd (m (set_trace w [])));
              trace := (trace w ++ trace (snd (m (set_trace w []))))%list |}).

(** The calls [m] makes when started in [w]. *)
Definition events {X : External} {A} (m : M A) (w : World) : list Event :=
  trace (snd (m (set_trace w []))).

Definition count_events (p : Event -> bool) (evs : list Event) : nat :=
  List.length (filter p evs).

(** The kinds of calls, without their arguments. *)
Inductive Kind : Type :=
| KOpen | KGetCollection | KQuery | KConfigure | KEmbed | KGenerate.

Definition kind_of (e : Event) : Kind :=
  match e with
  | EvPersistentClient _ => KOpen
  | EvGetCollection _ => KGetCollection
  | EvQuery _ _ => KQuery
  | EvConfigure _ => KConfigure
  | EvEmbedContent _ _ _ _ => KEmbed
  | EvGenerateContent _ _ => KGenerate
  end.

(** The order of calls of one complete question. *)
Definition pipeline_kinds : list Kind :=
  [KOpen; KGetCollection; KQuery; KConfigure; KEmbed; KConfigure; KGenerate].

Definition Prefix {A} (l full : list A) : Prop :=
  exists rest, (l ++ rest)%list = full.

(** A template whose every token is literal text or one of the three
    fields [make_rag_prompt] passes. *)
Definition known_field (name : string) : bool :=
  String.eqb name "query" || String.eqb name "relevant_passage"
  || String.eqb name "current_location".

Definition token_ok (t : token) : bool :=
  match t with
  | TLit _ => true
  | TField name => known_field name
  | _ => false
  end.

Definition template_ok {K : Constants} : bool :=
  forallb token_ok template_tokens.

Definition result_map {A B} (f : A -> B) (r : result A) : result B :=
  match r with
  | Ok a => Ok (f a)
  | Raise e => Raise e
  | Unmodelled => Unmodelled
  end.

Definition result_bind {A B} (r : result A) (f : A -> result B) : result B :=
  match r with
  | Ok a => f a
  | Raise e => Raise e
  | Unmodelled => Unmodelled
  end.

(** The prompt the stub run of [What is BRTS?] produces from
    [spec_template]. *)
Definition brts_prompt : string :=
  "You are a helpful assistant for the Bhopal BRTS bus system. Answer only from the passage. Use the current location if it is relevant. QUESTION: What is BRTS? PASSAGE: BRTS stands for Bus Rapid Transit System.It started in Bhopal in 2013. CURRENT LOCATION: None ANSWER:".

(** Two passages with a single quote, double quotes and a line feed. *)
Definition quoted_docs : list string :=
  ["Bhopal's buses ";
   String dquote ("BRTS" ++ String dquote (String newline "runs"))].

(** A query with a single quote, a double quote and a line feed. *)
Definition quoted_query : string :=
  "what's " ++ String dquote (String newline "BRTS?").

(** The BRTS collection with the embedding function replaced by a stub that
    returns a fixed vector. *)
Definition brts_collection_stub_embedding : @Collection brts_stub :=
  @Build_Collection brts_stub brts_docs
    (fun _ => @ret brts_stub (list Z) [1%Z]).

Definition brts_collection (X : External) (h : @Handle X) : @Collection X :=
  {| handle := h; embedding_function := GeminiEmbeddingFunction__call__ |}.

(** The prompt of the stub run with [quoted_query] and a location that
    holds a single quote. *)
Definition quoted_prompt : string :=
  "You are a helpful assistant for the Bhopal BRTS bus system. Answer only from the passage. Use the current location if it is relevant. QUESTION: "
  ++ quoted_query
  ++ " PASSAGE: BRTS stands for Bus Rapid Transit System.It started in Bhopal in 2013. CURRENT LOCATION: Rani's stop ANSWER:".

(** Number of occurrences of a character. *)
Fixpoint count_char (c : ascii) (s : string) : nat :=
  match s with
  | EmptyString => 0
  | String d r => (if Ascii.eqb d c then 1 else 0) + count_char c r
  end.

(** The outcome without its value. *)
Definition outcome_kind {A} (r : result A) : result unit :=
  result_map (fun _ => tt) r.

(** A generation service that refuses the request. *)
Definition refuse (prompt : string) : result GenerateContentResponse :=
  Raise (LibraryError "generation refused").

(** A generation service whose response carries no text. *)
Definition no_text (prompt : string) : result GenerateContentResponse :=
  Ok {| text := Raise (ValueError "response has no text part") |}.

Definition refuse_stub : External :=
  stub_external {| stub_collections := [("chatbot_rag_collection", brts_docs)];
                   stub_reply := refuse |}.

Definition no_text_stub : External :=
  stub_external {| stub_collections := [("chatbot_rag_collection", brts_docs)];
                   stub_reply := no_text |}.

(** A template without replacement fields. *)
Definition plain_template : Constants := {|
  RAG_PROMPT_CONSTANT := "Answer questions about the Bhopal BRTS."
|}.




(** The stub store holding [quoted_docs]. *)
Definition quoted_stub : External :=
  stub_external {| stub_collections :=
                     [("chatbot_rag_collection", quoted_docs)];
                   stub_reply := echo |}.

(** The prompt of the stub run over [quoted_docs]. *)
Definition sanitized_prompt : string :=
  "You are a helpful assistant for the Bhopal BRTS bus system. Answer only from the passage. Use the current location if it is relevant. QUESTION: What is BRTS? PASSAGE: Bhopals buses BRTS runs CURRENT LOCATION: None ANSWER:".

(** ** Strings *)

Lemma append_empty_r (s : string) : s ++ EmptyString = s.
Proof. induction s as [|c r IH]; simpl; [reflexivity | now rewrite IH]. Qed.

Lemma append_assoc' (a b c : string) : (a ++ b) ++ c = a ++ (b ++ c).
Proof. induction a as [|x r IH]; simpl; [reflexivity | now rewrite IH]. Qed.

Lemma str_join_cons (a : string) (l : list string) :
  str_join (a :: l) = a ++ str_join l.
Proof.
  unfold str_join. destruct l as [|b l]; simpl.
  - now rewrite append_empty_r.
  - reflexivity.
Qed.

Lemma str_join_fold (l : list string) :
  str_join l = fold_right append EmptyString l.
Proof.
  induction l as [|a l IH]; [reflexivity|].
  rewrite str_join_cons, IH. reflexivity.
Qed.

Lemma occurs_append (c : ascii) (a b : string) :
  occurs c (a ++ b) = occurs c a || occurs c b.
Proof.
  induction a as [|x r IH]; simpl; [reflexivity|].
  rewrite IH. now rewrite orb_assoc.
Qed.

Lemma occurs_replace_same (c : ascii) (new s : string) :
  occurs c new = false -> occurs c (str_replace c new s) = false.
Proof.
  intros Hnew. induction s as [|x r IH]; simpl; [reflexivity|].
  destruct (Ascii.eqb x c) eqn:E.
  - rewrite occurs_append, Hnew, IH. reflexivity.
  - simpl. rewrite E, IH. reflexivity.
Qed.

Lemma occurs_replace_other (c d : ascii) (new s : string) :
  occurs c new = false -> occurs c s = false ->
  occurs c (str_replace d new s) = false.
Proof.
  intros Hnew. induction s as [|x r IH]; simpl; [reflexivity|].
  intros H. apply orb_false_iff in H. destruct H as [Hx Hr].
  destruct (Ascii.eqb x d).
  - rewrite occurs_append, Hnew, IH by assumption. reflexivity.
  - simpl. rewrite Hx, IH by assumption. reflexivity.
Qed.

Lemma escape_no_apostrophe (s : string) : occurs apostrophe (escape s) = false.
Proof.
  unfold escape.
  apply occurs_replace_other; [reflexivity|].
  apply occurs_replace_other; [reflexivity|].
  apply occurs_replace_same. reflexivity.
Qed.

Lemma escape_no_dquote (s : string) : occurs dquote (escape s) = false.
Proof.
  unfold escape.
  apply occurs_replace_other; [reflexivity|].
  apply occurs_replace_same. reflexivity.
Qed.

Lemma escape_no_newline (s : string) : occurs newline (escape s) = false.
Proof.
  unfold escape. apply occurs_replace_same. reflexivity.
Qed.

Lemma escape_cons (c : ascii) (s : string) :
  escape (String c s) = escape_char c ++ escape s.
Proof.
  unfold escape, escape_char. simpl.
  destruct (Ascii.eqb c apostrophe) eqn:E1; simpl; [reflexivity|].
  destruct (Ascii.eqb c dquote) eqn:E2; simpl; [reflexivity|].
  destruct (Ascii.eqb c newline) eqn:E3; simpl; reflexivity.
Qed.

Lemma escape_chars (s : string) : escape s = flat_map_chars escape_char s.
Proof.
  induction s as [|c r IH]; [reflexivity|].
  rewrite escape_cons, IH. reflexivity.
Qed.

Lemma Substring_append_l (sub a s : string) :
  Substring sub s -> Substring sub (a ++ s).
Proof.
  intros (x & y & ->). exists (a ++ x), y. now rewrite append_assoc'.
Qed.

(** ** Rendering *)

Lemma kw_lookup_fill (q p : string) (loc v : pyval) (name : string) :
  kw_lookup name [("query", PyStr q); ("relevant_passage", PyStr p);
                  ("current_location", loc)] = Some v ->
  py_str v = fill q p (py_str loc) (TField name).
Proof.
  unfold kw_lookup, fill.
  rewrite (String.eqb_sym name "query"),
    (String.eqb_sym name "relevant_passage"),
    (String.eqb_sym name "current_location").
  destruct (String.eqb "query" name);
    [intros H; inversion H; reflexivity|].
  destruct (String.eqb "relevant_passage" name);
    [intros H; inversion H; reflexivity|].
  destruct (String.eqb "current_location" name);
    [intros H; inversion H; reflexivity|discriminate].
Qed.

Lemma render_fill (q p : string) (loc : pyval) (ts : list token) :
  forall out,
    render ts [("query", PyStr q); ("relevant_passage", PyStr p);
               ("current_location", loc)] = Ok out ->
    out = str_join (map (fill q p (py_str loc)) ts).
Proof.
  induction ts as [|t ts IH]; intros out H; cbn [render] in H.
  - now inversion H.
  - cbn [map]. rewrite str_join_cons.
    destruct t as [s|name|e|]; try discriminate.
    + destruct (render ts _) as [o| |] eqn:R; try discriminate.
      inversion H; subst. now rewrite (IH o eq_refl).
    + destruct (kw_lookup name _) as [v|] eqn:L; [|discriminate].
      apply kw_lookup_fill in L. rewrite <- L.
      destruct (render ts _) as [o| |] eqn:R; try discriminate.
      inversion H; subst. now rewrite (IH o eq_refl).
Qed.

Lemma join_fill_Substring (f : token -> string) (t : token) (ts : list token) :
  In t ts -> Substring (f t) (str_join (map f ts)).
Proof.
  induction ts as [|u ts IH]; intros H; [contradiction|].
  simpl map. rewrite str_join_cons. destruct H as [->|H].
  - exists EmptyString, (str_join (map f ts)). reflexivity.
  - apply Substring_append_l, IH, H.
Qed.

(** ** The pipeline never reads the call history *)

Section Frames.
Context {X : External} {K : Constants}.

Notation "x <- m ;; k" := (bind m (fun x => k))
  (at level 61, m at next level, right associativity).
Notation "m ;;; k" := (bind m (fun _ => k))
  (at level 61, right associativity).

Lemma world_eta (w : World) :
  {| environ := environ w; ext := ext w; trace := trace w |} = w.
Proof. now destruct w. Qed.

Lemma framed_ret {A} (a : A) : framed (ret a).
Proof.
  intros w. unfold ret; simpl. rewrite app_nil_r. now rewrite world_eta.
Qed.

Lemma framed_lift {A} (r : result A) : framed (lift r).
Proof.
  intros w. unfold lift; simpl. rewrite app_nil_r. now rewrite world_eta.
Qed.

Lemma framed_raise {A} (e : exn) : framed (@raise X A e).
Proof.
  intros w. unfold raise; simpl. rewrite app_nil_r. now rewrite world_eta.
Qed.

Lemma framed_getenv (name : string) : framed (os_getenv name).
Proof.
  intros w. unfold os_getenv; simpl. rewrite app_nil_r.
  now rewrite world_eta.
Qed.

Lemma framed_log (e : Event) : framed (log e).
Proof. intros w. reflexivity. Qed.

Lemma framed_call {A} (e : Event) (f : Ext -> result A * Ext) :
  framed (call e f).
Proof.
  intros w. unfold call; simpl. destruct (f (ext w)); reflexivity.
Qed.

Lemma framed_bind {A B} (m : M A) (k : A -> M B) :
  framed m ->
  (forall w a w', m w = (Ok a, w') -> framed (k a)) ->
  framed (bind m k).
Proof.
  intros Hm Hk w. unfold bind.
  rewrite (Hm w).
  destruct (m (set_trace w [])) as [r w1] eqn:E.
  assert (Henv : environ w1 = environ w).
  { pose proof (Hm (set_trace w [])) as H0.
    change (set_trace (set_trace w []) []) with (set_trace w []) in H0.
    rewrite E in H0. simpl in H0.
    inversion H0 as [H1]. rewrite H1. reflexivity. }
  cbn [fst snd].
  destruct r as [a| |]; [|reflexivity|reflexivity].
  specialize (Hk _ _ _ E).
  rewrite (Hk {| environ := environ w; ext := ext w1;
                 trace := (trace w ++ trace w1)%list |}).
  rewrite (Hk w1). unfold set_trace. cbn [environ ext trace fst snd].
  rewrite Henv. now rewrite app_assoc.
Qed.

Lemma framed_embedding (input : list string) :
  framed (GeminiEmbeddingFunction__call__ input).
Proof.
  unfold GeminiEmbeddingFunction__call__.
  apply framed_bind; [apply framed_getenv|]. intros _ key _ _.
  destruct (negb (truthy key)); [apply framed_raise|].
  apply framed_bind; [apply framed_log|]. intros _ _ _ _.
  apply framed_bind; [apply framed_call|]. intros _ r _ _.
  apply framed_ret.
Qed.

Lemma framed_generate (prompt : string) :
  framed (__generate_answer prompt).
Proof.
  unfold __generate_answer.
  apply framed_bind; [apply framed_getenv|]. intros _ key _ _.
  destruct (negb (truthy key)); [apply framed_raise|].
  apply framed_bind; [apply framed_log|]. intros _ _ _ _.
  apply framed_bind; [apply framed_call|]. intros _ r _ _.
  apply framed_lift.
Qed.

Lemma framed_query (db : Collection) (texts : list string) (n : Z) :
  (forall input, framed (embedding_function db input)) ->
  framed (Collection_query db texts n).
Proof.
  intros Hef. unfold Collection_query.
  apply framed_bind; [apply framed_log|]. intros _ _ _ _.
  apply framed_bind; [apply Hef|]. intros _ embs _ _.
  intros w; simpl.
  destruct (nearest (handle db) embs n (ext w)); simpl.
  now rewrite app_nil_r.
Qed.

Lemma load_embedding_function (path name : string) (w w' : World)
      (db : Collection) :
  load_chroma_collection path name w = (Ok db, w') ->
  embedding_function db = GeminiEmbeddingFunction__call__.
Proof.
  unfold load_chroma_collection, chromadb_PersistentClient,
    Client_get_collection, bind, call, ret.
  destruct (persistent_client path (ext w)) as [[c| |] x1];
    try discriminate.
  simpl. destruct (get_collection c name x1) as [[h| |] x2];
    try discriminate.
  intros H; inversion H; reflexivity.
Qed.

Lemma framed_load (path name : string) :
  framed (load_chroma_collection path name).
Proof.
  unfold load_chroma_collection, chromadb_PersistentClient,
    Client_get_collection.
  apply framed_bind; [apply framed_call|]. intros _ c _ _.
  apply framed_bind; [apply framed_call|]. intros _ h _ _.
  apply framed_ret.
Qed.

Lemma framed_generate_answer (db : Collection) (query : string)
      (loc : pyval) :
  (forall input, framed (embedding_function db input)) ->
  framed (generate_answer db query loc).
Proof.
  intros Hef. unfold generate_answer, get_relevant_passage.
  apply framed_bind.
  { apply framed_bind; [now apply framed_query|]. intros _ r _ _.
    apply framed_lift. }
  intros _ docs _ _.
  apply framed_bind; [apply framed_lift|]. intros _ prompt _ _.
  apply framed_bind; [apply framed_generate|]. intros _ answer _ _.
  apply framed_ret.
Qed.

Lemma framed_ask_question (query : string) (loc : pyval) :
  framed (ask_question query loc).
Proof.
  unfold ask_question.
  apply framed_bind; [apply framed_load|]. intros w db w' H.
  apply framed_generate_answer. intros input.
  rewrite (load_embedding_function _ _ _ _ _ H).
  apply framed_embedding.
Qed.

End Frames.

(** ** The claims *)

Section Properties.
Context {X : External} {K : Constants}.

Notation "x <- m ;; k" := (bind m (fun x => k))
  (at level 61, m at next level, right associativity).
Notation "m ;;; k" := (bind m (fun _ => k))
  (at level 61, right associativity).

Ltac run_pipeline :=
  unfold ask_question_default, ask_question, load_chroma_collection,
    chromadb_PersistentClient, Client_get_collection, generate_answer,
    get_relevant_passage, Collection_query, GeminiEmbeddingFunction__call__,
    __generate_answer, genai_configure, genai_embed_content,
    bind, call, log, ret, lift, raise, os_getenv;
  cbn -[make_rag_prompt str_join env_lookup truthy].

Ltac step := cbn -[make_rag_prompt str_join env_lookup truthy].

Ltac cases :=
  repeat (step;
    match goal with
    | |- context [persistent_client ?a ?b] =>
        destruct (persistent_client a b) as [[?| |] ?] eqn:?
    | |- context [get_collection ?a ?b ?c] =>
        destruct (get_collection a b c) as [[?| |] ?] eqn:?
    | |- context [truthy ?v] => destruct (truthy v) eqn:?
    | |- context [embed_content ?a ?b ?c ?d ?e] =>
        destruct (embed_content a b c d e) as [[?| |] ?] eqn:?
    | |- context [nearest ?a ?b ?c ?d] =>
        destruct (nearest a b c d) as [[?| |] ?] eqn:?
    | |- context [first_documents ?r] =>
        destruct (first_documents r) as [?| |] eqn:?
    | |- context [make_rag_prompt ?a ?b ?c] =>
        destruct (make_rag_prompt a b c) as [?| |] eqn:?
    | |- context [generate_content ?a ?b ?c] =>
        destruct (generate_content a b c) as [[?| |] ?] eqn:?
    | |- context [text ?r] => destruct (text r) as [?| |] eqn:?
    end); step.

Lemma truthy_some (key : string) :
  key <> EmptyString -> truthy (Some key) = true.
Proof. destruct key; [contradiction | reflexivity]. Qed.

Lemma truthy_false (v : option string) :
  v = None \/ v = Some EmptyString -> truthy v = false.
Proof. intros [-> | ->]; reflexivity. Qed.

(** The run of [ask_question] when every step succeeds. *)
Lemma ask_question_run (query : string) (loc : pyval) (w : World)
      c x1 h x2 key er x3 qr x4 docs others prompt resp x5 answer :
  persistent_client "./chroma" (ext w) = (Ok c, x1) ->
  get_collection c "chatbot_rag_collection" x1 = (Ok h, x2) ->
  env_lookup "GEMINI_API_KEY" (environ w) = Some key ->
  key <> EmptyString ->
  embed_content "models/embedding-001" [query] "retrieval_document"
                "Custom query" x2 = (Ok er, x3) ->
  nearest h (embedding er) 5 x3 = (Ok qr, x4) ->
  documents qr = Some (docs :: others) ->
  make_rag_prompt query (str_join docs) loc = Ok prompt ->
  generate_content "gemini-1.5-flash" prompt x4 = (Ok resp, x5) ->
  text resp = Ok answer ->
  ask_question query loc w =
    (Ok answer,
     {| environ := environ w; ext := x5;
        trace := (trace w ++
          [EvPersistentClient "./chroma";
           EvGetCollection "chatbot_rag_collection";
           EvQuery [query] 5;
           EvConfigure key;
           EvEmbedContent "models/embedding-001" [query]
                          "retrieval_document" "Custom query";
           EvConfigure key;
           EvGenerateContent "gemini-1.5-flash" prompt])%list |}).
Proof.
  intros H1 H2 Hk Hne H3 H4 H5 H6 H7 H8.
  run_pipeline.
  rewrite H1. step. rewrite H2. step.
  rewrite Hk, (truthy_some _ Hne). step.
  rewrite H3. step. rewrite H4.
  unfold first_documents. rewrite H5, H6. step.
  rewrite Hk, (truthy_some _ Hne). step.
  rewrite H7. step. rewrite H8.
  repeat rewrite <- app_assoc. reflexivity.
Qed.

(** Whatever happens, the calls of one question are an initial part of the
    fixed sequence: each stage is entered at most once, in order. *)
Lemma pipeline_shape (query : string) (loc : pyval) (w : World) :
  Prefix (map kind_of (events (ask_question query loc) w)) pipeline_kinds.
Proof.
  unfold events, Prefix, set_trace. run_pipeline. cases;
    eexists; reflexivity.
Qed.

(** C3.  With [GEMINI_API_KEY] absent or empty, the embedding step and the
    generation step both raise the missing-credential error (the
    [ValueError] that the specification calls a configuration error) and
    leave the world as it was: no call is recorded and no service is
    reached.  With the variable set to a non-empty key the check raises
    nothing: the call is configured with that key and goes out to the
    service, whose outcome is the outcome of the step. *)
Theorem credential_check (input : list string) (prompt : string)
        (w : World) :
  (env_lookup "GEMINI_API_KEY" (environ w) = None \/
   env_lookup "GEMINI_API_KEY" (environ w) = Some EmptyString ->
   GeminiEmbeddingFunction__call__ input w
     = (Raise (ValueError missing_key_message), w) /\
   __generate_answer prompt w
     = (Raise (ValueError missing_key_message), w) /\
   count_events is_network (events (GeminiEmbeddingFunction__call__ input) w)
     = 0%nat /\
   count_events is_network (events (__generate_answer prompt) w)
     = 0%nat) /\
  (forall key,
      env_lookup "GEMINI_API_KEY" (environ w) = Some key ->
      key <> EmptyString ->
      GeminiEmbeddingFunction__call__ input w
        = (result_map embedding
             (fst (embed_content "models/embedding-001" input
                                 "retrieval_document" "Custom query"
                                 (ext w))),
           {| environ := environ w;
              ext := snd (embed_content "models/embedding-001" input
                                        "retrieval_document" "Custom query"
                                        (ext w));
              trace := (trace w ++
                [EvConfigure key;
                 EvEmbedContent "models/embedding-001" input
                                "retrieval_document" "Custom query"])%list |})
      /\
      __generate_answer prompt w
        = (result_bind
             (fst (generate_content "gemini-1.5-flash" prompt (ext w)))
             text,
           {| environ := environ w;
              ext := snd (generate_content "gemini-1.5-flash" prompt
                                           (ext w));
              trace := (trace w ++
                [EvConfigure key;
                 EvGenerateContent "gemini-1.5-flash" prompt])%list |})).
Proof.
  split.
  - intros H. apply truthy_false in H.
    unfold events, set_trace, GeminiEmbeddingFunction__call__,
      __generate_answer, bind, os_getenv, raise.
    cbn [environ ext trace]. rewrite H. repeat split.
  - intros key Hk Hne.
    unfold GeminiEmbeddingFunction__call__, __generate_answer,
      genai_configure, genai_embed_content, bind, os_getenv, raise, call,
      log, ret, lift.
    rewrite Hk, (truthy_some _ Hne). step. split.
    + destruct (embed_content _ _ _ _ _) as [[r| |] x]; step;
        now rewrite <- app_assoc.
    + destruct (generate_content _ _ _) as [[r| |] x]; step;
        now rewrite <- app_assoc.
Qed.

Lemma make_rag_prompt_fill (query block : string) (loc : pyval)
      (prompt : string) :
  make_rag_prompt query block loc = Ok prompt ->
  prompt = str_join (map (fill query (escape block) (py_str loc))
                         template_tokens).
Proof. unfold make_rag_prompt, str_format. apply render_fill. Qed.

Lemma bind_ret_r {A} (m : M A) (w : World) : bind m ret w = m w.
Proof.
  unfold bind, ret. destruct (m w) as [[a| |] w']; reflexivity.
Qed.

(** What [generate_answer] does once retrieval has returned: it formats the
    prompt from the query, the retrieved passages joined in the order
    retrieved and the location, and hands it to the generation step in the
    world retrieval left. *)
Lemma generate_answer_step (db : Collection) (query : string) (loc : pyval)
      (w w2 : World) (passages : list string) :
  get_relevant_passage query db 5 w = (Ok passages, w2) ->
  generate_answer db query loc w =
    match make_rag_prompt query (fold_right append EmptyString passages) loc
    with
    | Ok prompt => __generate_answer prompt w2
    | Raise e => (Raise e, w2)
    | Unmodelled => (Unmodelled, w2)
    end.
Proof.
  intros H. unfold generate_answer.
  unfold bind at 1. rewrite H. rewrite <- str_join_fold.
  unfold bind at 1. unfold lift.
  destruct (make_rag_prompt query (str_join passages) loc) as [prompt| |];
    [|reflexivity|reflexivity].
  apply bind_ret_r.
Qed.

(** C2.  [generate_answer] concatenates the passages it retrieved, in the
    order retrieved, into one block and formats the prompt from it: the
    prompt it hands to the generation step has every [relevant_passage]
    field of the template filled with the sanitized block.  The sanitized
    block drops every single quote and every double quote, turns every line
    feed into one space and keeps every other character, so none of the
    three characters occurs in that segment. *)
Theorem passage_block_sanitized (db : Collection) (query : string)
        (loc : pyval) (w w2 : World) (passages : list string) :
  get_relevant_passage query db 5 w = (Ok passages, w2) ->
  let block := fold_right append EmptyString passages in
  escape block = flat_map_chars escape_char block /\
  occurs apostrophe (escape block) = false /\
  occurs dquote (escape block) = false /\
  occurs newline (escape block) = false /\
  (forall prompt,
      make_rag_prompt query block loc = Ok prompt ->
      generate_answer db query loc w = __generate_answer prompt w2 /\
      prompt = str_join (map (fill query (escape block) (py_str loc))
                             template_tokens) /\
      fill query (escape block) (py_str loc) (TField "relevant_passage")
        = escape block).
Proof.
  intros H block.
  split; [apply escape_chars|].
  split; [apply escape_no_apostrophe|].
  split; [apply escape_no_dquote|].
  split; [apply escape_no_newline|].
  intros prompt Hf. split; [|split; [|reflexivity]].
  - rewrite (generate_answer_step _ _ loc _ _ _ H). fold block.
    now rewrite Hf.
  - now apply make_rag_prompt_fill.
Qed.


(** C10.  Called without [current_location], [ask_question] runs with
    [None], and the formatter gives absence no special treatment: on a
    complete run the prompt sent to the generation model is the template
    with every [current_location] field filled with the four characters
    [None], which is neither omitted nor empty. *)
Theorem default_location_none (query : string) (w : World) :
  ask_question_default query w = ask_question query PyNone w /\
  (forall c x1 h x2 key er x3 qr x4 docs others prompt resp x5 answer,
      persistent_client "./chroma" (ext w) = (Ok c, x1) ->
      get_collection c "chatbot_rag_collection" x1 = (Ok h, x2) ->
      env_lookup "GEMINI_API_KEY" (environ w) = Some key ->
      key <> EmptyString ->
      embed_content "models/embedding-001" [query] "retrieval_document"
                    "Custom query" x2 = (Ok er, x3) ->
      nearest h (embedding er) 5 x3 = (Ok qr, x4) ->
      documents qr = Some (docs :: others) ->
      make_rag_prompt query (str_join docs) PyNone = Ok prompt ->
      generate_content "gemini-1.5-flash" prompt x4 = (Ok resp, x5) ->
      text resp = Ok answer ->
      ask_question_default query w =
        (Ok answer,
         {| environ := environ w; ext := x5;
            trace := (trace w ++
              [EvPersistentClient "./chroma";
               EvGetCollection "chatbot_rag_collection";
               EvQuery [query] 5;
               EvConfigure key;
               EvEmbedContent "models/embedding-001" [query]
                              "retrieval_document" "Custom query";
               EvConfigure key;
               EvGenerateContent "gemini-1.5-flash" prompt])%list |}) /\
      prompt = str_join (map (fill query (escape (str_join docs)) "None")
                             template_tokens)) /\
  (forall passage,
      fill query passage (py_str PyNone) (TField "current_location")
        = "None") /\
  py_str PyNone <> EmptyString.
Proof.
  split; [reflexivity|]. split; [|split; [reflexivity | discriminate]].
  intros c x1 h x2 key er x3 qr x4 docs others prompt resp x5 answer
         H1 H2 Hk Hne H3 H4 H5 H6 H7 H8.
  split.
  - unfold ask_question_default.
    apply (ask_question_run _ _ _ _ _ _ _ _ _ _ _ _ _ _ _ _ _ _
             H1 H2 Hk Hne H3 H4 H5 H6 H7 H8).
  - now apply make_rag_prompt_fill in H6.
Qed.

(** C1.  One call of [ask_question] is one pass through the fixed
    sequence of stages.  It keeps nothing from earlier calls: outcome and
    calls are the same after any call history, and the collection is
    opened again first thing.  When every step succeeds, the calls are
    exactly: open the store at [./chroma], get [chatbot_rag_collection],
    query it for the five nearest passages of the query (which embeds the
    query), and send the formatted prompt to the generation model, each
    once; the value returned is the model's text, unchanged. *)
Theorem ask_question_pipeline (query : string) (loc : pyval) (w : World) :
  framed (ask_question query loc) /\
  Prefix (map kind_of (events (ask_question query loc) w)) pipeline_kinds /\
  (exists rest,
      events (ask_question query loc) w
        = EvPersistentClient "./chroma" :: rest) /\
  (forall c x1 h x2 key er x3 qr x4 docs others prompt resp x5 answer,
      persistent_client "./chroma" (ext w) = (Ok c, x1) ->
      get_collection c "chatbot_rag_collection" x1 = (Ok h, x2) ->
      env_lookup "GEMINI_API_KEY" (environ w) = Some key ->
      key <> EmptyString ->
      embed_content "models/embedding-001" [query] "retrieval_document"
                    "Custom query" x2 = (Ok er, x3) ->
      nearest h (embedding er) 5 x3 = (Ok qr, x4) ->
      documents qr = Some (docs :: others) ->
      make_rag_prompt query (str_join docs) loc = Ok prompt ->
      generate_content "gemini-1.5-flash" prompt x4 = (Ok resp, x5) ->
      text resp = Ok answer ->
      ask_question query loc w =
        (Ok answer,
         {| environ := environ w; ext := x5;
            trace := (trace w ++
              [EvPersistentClient "./chroma";
               EvGetCollection "chatbot_rag_collection";
               EvQuery [query] 5;
               EvConfigure key;
               EvEmbedContent "models/embedding-001" [query]
                              "retrieval_document" "Custom query";
               EvConfigure key;
               EvGenerateContent "gemini-1.5-flash" prompt])%list |})).
Proof.
  split; [apply framed_ask_question|].
  split; [apply pipeline_shape|].
  split.
  - unfold events, set_trace. run_pipeline. cases; eexists; reflexivity.
  - intros. eapply ask_question_run; eassumption.
Qed.

(** C5.  A failure of loading, of retrieval or of prompt formatting is the
    outcome of [ask_question]: the same exception, in the world the failed
    stage left, with no answer value.  Nothing is run after the failure,
    the generation model is not called, and no stage is entered a second
    time. *)
Theorem failure_propagation (query : string) (loc : pyval) (w : World)
        (e : exn) :
  (forall w1,
      load_chroma_collection "./chroma" "chatbot_rag_collection" w
        = (Raise e, w1) ->
      ask_question query loc w = (Raise e, w1) /\
      count_events is_generation (events (ask_question query loc) w) = 0%nat)
  /\
  (forall db w1 w2,
      load_chroma_collection "./chroma" "chatbot_rag_collection" w
        = (Ok db, w1) ->
      get_relevant_passage query db 5 w1 = (Raise e, w2) ->
      ask_question query loc w = (Raise e, w2) /\
      count_events is_generation (events (ask_question query loc) w) = 0%nat)
  /\
  (forall db w1 docs w2,
      load_chroma_collection "./chroma" "chatbot_rag_collection" w
        = (Ok db, w1) ->
      get_relevant_passage query db 5 w1 = (Ok docs, w2) ->
      make_rag_prompt query (str_join docs) loc = Raise e ->
      ask_question query loc w = (Raise e, w2) /\
      count_events is_generation (events (ask_question query loc) w) = 0%nat)
  /\
  Prefix (map kind_of (events (ask_question query loc) w)) pipeline_kinds.
Proof.
  split; [|split; [|split; [|apply pipeline_shape]]].
  - intros w1 H. split.
    + unfold ask_question, bind. now rewrite H.
    + revert H. unfold events, set_trace. run_pipeline. cases;
        intros H; try discriminate H; reflexivity.
  - intros db w1 w2 H1 H2. split.
    + unfold ask_question, generate_answer, bind. rewrite H1.
      now rewrite H2.
    + revert H1 H2. unfold events, set_trace. run_pipeline.
      destruct (persistent_client "./chroma" (ext w)) as [[c| |] x1];
        step; try discriminate.
      destruct (get_collection c "chatbot_rag_collection" x1)
        as [[h| |] x2]; step; try discriminate.
      intros H1. inversion H1; subst; clear H1. step. cases;
        intros H; try discriminate H; reflexivity.
  - intros db w1 docs w2 H1 H2 H3. split.
    + unfold ask_question, generate_answer, bind. rewrite H1.
      rewrite H2. unfold lift. now rewrite H3.
    + revert H1 H2 H3. unfold events, set_trace. run_pipeline.
      destruct (persistent_client "./chroma" (ext w)) as [[c| |] x1];
        step; try discriminate.
      destruct (get_collection c "chatbot_rag_collection" x1)
        as [[h| |] x2]; step; try discriminate.
      intros H1. inversion H1; subst; clear H1. step.
      destruct (truthy _); step; try discriminate.
      destruct (embed_content _ _ _ _ _) as [[er| |] x3]; step;
        try discriminate.
      destruct (nearest _ _ _ _) as [[qr| |] x4]; step; try discriminate.
      destruct (first_documents qr) as [ds| |]; step; try discriminate.
      intros H2. inversion H2; subst; clear H2.
      intros H3. rewrite H3. reflexivity.
Qed.

(** C9.  The query is not checked and not changed, whatever it is, the
    empty string included.  Once the collection is loaded the store is
    queried with the one-element list holding the query as given; on a
    complete run the same text goes to the embedding service, and in the
    prompt every [query] field is the query as given and every
    [current_location] field is the location as given; only the passage
    block goes through the sanitization. *)
Theorem query_passed_unchanged (query : string) (loc : pyval) (w : World) :
  (forall c x1 h x2,
      persistent_client "./chroma" (ext w) = (Ok c, x1) ->
      get_collection c "chatbot_rag_collection" x1 = (Ok h, x2) ->
      exists rest,
        events (ask_question query loc) w
          = ([EvPersistentClient "./chroma";
              EvGetCollection "chatbot_rag_collection";
              EvQuery [query] 5] ++ rest)%list) /\
  (forall c x1 h x2 key er x3 qr x4 docs others prompt resp x5 answer,
      persistent_client "./chroma" (ext w) = (Ok c, x1) ->
      get_collection c "chatbot_rag_collection" x1 = (Ok h, x2) ->
      env_lookup "GEMINI_API_KEY" (environ w) = Some key ->
      key <> EmptyString ->
      embed_content "models/embedding-001" [query] "retrieval_document"
                    "Custom query" x2 = (Ok er, x3) ->
      nearest h (embedding er) 5 x3 = (Ok qr, x4) ->
      documents qr = Some (docs :: others) ->
      make_rag_prompt query (str_join docs) loc = Ok prompt ->
      generate_content "gemini-1.5-flash" prompt x4 = (Ok resp, x5) ->
      text resp = Ok answer ->
      In (EvEmbedContent "models/embedding-001" [query]
                         "retrieval_document" "Custom query")
         (trace (snd (ask_question query loc w))) /\
      In (EvGenerateContent "gemini-1.5-flash" prompt)
         (trace (snd (ask_question query loc w))) /\
      prompt = str_join (map (fill query (escape (str_join docs))
                                   (py_str loc)) template_tokens)) /\
  (forall passage location,
      fill query passage location (TField "query") = query) /\
  (forall passage,
      fill query passage (py_str loc) (TField "current_location")
        = py_str loc) /\
  (forall s, py_str (PyStr s) = s).
Proof.
  split; [|split; [|repeat split]].
  - intros c x1 h x2 H1 H2. unfold events, set_trace. run_pipeline.
    rewrite H1. step. rewrite H2. cases; eexists; reflexivity.
  - intros c x1 h x2 key er x3 qr x4 docs others prompt resp x5 answer
           H1 H2 Hk Hne H3 H4 H5 H6 H7 H8.
    rewrite (ask_question_run _ _ _ _ _ _ _ _ _ _ _ _ _ _ _ _ _ _
               H1 H2 Hk Hne H3 H4 H5 H6 H7 H8).
    cbn [snd trace]. repeat split.
    + apply in_or_app. right. simpl. tauto.
    + apply in_or_app. right. simpl. tauto.
    + now apply make_rag_prompt_fill.
Qed.

(** C8, as the code has it.  When loading, retrieval, embedding and
    generation all succeed, [ask_question] returns the text of the model's
    response and nothing else decides the result: it is non-empty exactly
    when that text is. *)
Theorem answer_is_model_text (query : string) (loc : pyval) (w : World)
        c x1 h x2 key er x3 qr x4 docs others prompt resp x5 answer :
  persistent_client "./chroma" (ext w) = (Ok c, x1) ->
  get_collection c "chatbot_rag_collection" x1 = (Ok h, x2) ->
  env_lookup "GEMINI_API_KEY" (environ w) = Some key ->
  key <> EmptyString ->
  embed_content "models/embedding-001" [query] "retrieval_document"
                "Custom query" x2 = (Ok er, x3) ->
  nearest h (embedding er) 5 x3 = (Ok qr, x4) ->
  documents qr = Some (docs :: others) ->
  make_rag_prompt query (str_join docs) loc = Ok prompt ->
  generate_content "gemini-1.5-flash" prompt x4 = (Ok resp, x5) ->
  text resp = Ok answer ->
  fst (ask_question query loc w) = Ok answer /\
  (answer <> EmptyString <->
   fst (ask_question query loc w) <> Ok EmptyString).
Proof.
  intros H1 H2 Hk Hne H3 H4 H5 H6 H7 H8.
  rewrite (ask_question_run _ _ _ _ _ _ _ _ _ _ _ _ _ _ _ _ _ _
             H1 H2 Hk Hne H3 H4 H5 H6 H7 H8).
  cbn [fst]. split; [reflexivity|]. split.
  - intros Hn E. inversion E. contradiction.
  - intros Hn E. subst. now apply Hn.
Qed.

End Properties.

(** ** Runs on the test doubles *)

Lemma kw_lookup_known (q p : string) (loc : pyval) (name : string) :
  known_field name = true ->
  exists v, kw_lookup name [("query", PyStr q); ("relevant_passage", PyStr p);
                            ("current_location", loc)] = Some v.
Proof.
  unfold known_field, kw_lookup.
  rewrite (String.eqb_sym name "query"),
    (String.eqb_sym name "relevant_passage"),
    (String.eqb_sym name "current_location").
  destruct (String.eqb "query" name); [eexists; reflexivity|].
  destruct (String.eqb "relevant_passage" name); [eexists; reflexivity|].
  destruct (String.eqb "current_location" name); [eexists; reflexivity|].
  discriminate.
Qed.

Lemma render_ok (q p : string) (loc : pyval) (ts : list token) :
  forallb token_ok ts = true ->
  render ts [("query", PyStr q); ("relevant_passage", PyStr p);
             ("current_location", loc)]
    = Ok (str_join (map (fill q p (py_str loc)) ts)).
Proof.
  induction ts as [|t ts IH]; intros H; [reflexivity|].
  cbn [forallb] in H. apply andb_true_iff in H. destruct H as [Ht Hts].
  cbn [map]. rewrite str_join_cons. cbn [render].
  destruct t as [s|name|e|]; try discriminate.
  - rewrite (IH Hts). reflexivity.
  - cbn [token_ok] in Ht.
    destruct (kw_lookup_known q p loc name Ht) as [v L].
    rewrite L, (IH Hts). now rewrite (kw_lookup_fill _ _ _ _ _ L).
Qed.


(** C6, as the code has it.  In the stub environment (the collection holds
    the two BRTS documents, the embedding service returns fixed vectors, the
    generation model echoes its prompt), with [GEMINI_API_KEY] set to a
    non-empty value and a template made of literal text and the three
    fields, among them [query] and [relevant_passage],
    [ask_question("What is BRTS?")] returns a string that contains the query
    text and the two documents joined, which the sanitization leaves as they
    are. *)
Theorem brts_end_to_end (K : Constants) (env : list (string * string))
        (key : string) (x : nat) :
  env_lookup "GEMINI_API_KEY" env = Some key ->
  key <> EmptyString ->
  template_ok = true ->
  In (TField "query") template_tokens ->
  In (TField "relevant_passage") template_tokens ->
  exists answer w',
    ask_question_default (X := brts_stub) "What is BRTS?"
                         (stub_world brts_stub env x) = (Ok answer, w') /\
    Substring "What is BRTS?" answer /\
    Substring
      "BRTS stands for Bus Rapid Transit System.It started in Bhopal in 2013."
      answer /\
    escape (str_join brts_docs)
      = "BRTS stands for Bus Rapid Transit System.It started in Bhopal in 2013.".
Proof.
  intros Hk Hne Hok Hq Hp.
  pose (prompt :=
          str_join (map (fill "What is BRTS?" (escape (str_join brts_docs))
                              (py_str PyNone)) template_tokens)).
  assert (Hprompt : make_rag_prompt "What is BRTS?" (str_join brts_docs) PyNone
                    = Ok prompt).
  { unfold make_rag_prompt, str_format. now apply render_ok. }
  exists prompt. eexists. split; [|split; [|split]].
  - unfold ask_question_default.
    eapply (ask_question_run (X := brts_stub) "What is BRTS?" PyNone
              (stub_world brts_stub env x)
              "./chroma" x brts_docs x key {| embedding := [1%Z] |} (S x)
              {| documents := Some [brts_docs] |} (S x) brts_docs []
              prompt {| text := Ok prompt |} (S (S x)) prompt);
      try reflexivity; assumption.
  - apply (join_fill_Substring
             (fill "What is BRTS?" (escape (str_join brts_docs))
                   (py_str PyNone)) _ _ Hq).
  - apply (join_fill_Substring
             (fill "What is BRTS?" (escape (str_join brts_docs))
                   (py_str PyNone)) _ _ Hp).
  - reflexivity.
Qed.

(** C6 fails as stated: the stub environment says nothing of the credential,
    and with [GEMINI_API_KEY] unset the call raises instead of returning a
    string, before the echoing model is reached.  The same holds when the
    embedding function itself is replaced by a stub: the generation step
    checks the credential on its own. *)
Lemma brts_without_key :
  ask_question_default (X := brts_stub) (K := spec_template) "What is BRTS?"
                       (stub_world brts_stub [] 0)
    = (Raise (ValueError missing_key_message),
       (stub_world_at brts_stub [] 0
          ([EvPersistentClient "./chroma";
                    EvGetCollection "chatbot_rag_collection";
                    EvQuery ["What is BRTS?"] 5]))) /\
  generate_answer (X := brts_stub) (K := spec_template)
                  brts_collection_stub_embedding
                  "What is BRTS?" PyNone (stub_world brts_stub [] 0)
    = (Raise (ValueError missing_key_message),
       (stub_world_at brts_stub [] 0
          ([EvQuery ["What is BRTS?"] 5]))) /\
  ~ (exists answer w',
        ask_question_default (X := brts_stub) (K := spec_template)
                             "What is BRTS?" (stub_world brts_stub [] 0)
          = (Ok answer, w')).
Proof.
  split; [reflexivity|]. split; [reflexivity|].
  intros (answer & w' & H). discriminate H.
Qed.

(** C8 fails as stated: with a non-empty query, a populated collection and
    every service succeeding, a model whose text is empty makes
    [ask_question] return the empty string. *)
Lemma empty_answer :
  "What is BRTS?" <> EmptyString /\
  brts_docs <> [] /\
  ask_question (X := mute_stub) (K := spec_template) "What is BRTS?" PyNone
               (stub_world mute_stub with_key 0)
    = (Ok EmptyString,
       (stub_world_at mute_stub with_key 2
          ([EvPersistentClient "./chroma";
                    EvGetCollection "chatbot_rag_collection";
                    EvQuery ["What is BRTS?"] 5;
                    EvConfigure "k-123";
                    EvEmbedContent "models/embedding-001" ["What is BRTS?"]
                                   "retrieval_document" "Custom query";
                    EvConfigure "k-123";
                    EvGenerateContent "gemini-1.5-flash" brts_prompt]))).
Proof.
  split; [discriminate|]. split; [discriminate|]. reflexivity.
Qed.

(** ** The theorems at concrete inputs *)

Lemma ask_question_pipeline_witness :
  ask_question (X := brts_stub) (K := spec_template) "What is BRTS?" PyNone
               (stub_world brts_stub with_key 0)
    = (Ok brts_prompt,
       (stub_world_at brts_stub with_key 2
          ([EvPersistentClient "./chroma";
                    EvGetCollection "chatbot_rag_collection";
                    EvQuery ["What is BRTS?"] 5;
                    EvConfigure "k-123";
                    EvEmbedContent "models/embedding-001" ["What is BRTS?"]
                                   "retrieval_document" "Custom query";
                    EvConfigure "k-123";
                    EvGenerateContent "gemini-1.5-flash" brts_prompt]))).
Proof.
  apply (proj2 (proj2 (proj2
           (ask_question_pipeline (X := brts_stub) (K := spec_template)
              "What is BRTS?" PyNone (stub_world brts_stub with_key 0))))
           "./chroma" 0 brts_docs 0 "k-123" {| embedding := [1%Z] |} 1
           {| documents := Some [brts_docs] |} 1 brts_docs []
           brts_prompt {| text := Ok brts_prompt |} 2 brts_prompt);
    try reflexivity; discriminate.
Defined.

Lemma passage_block_sanitized_witness :
  generate_answer (X := quoted_stub) (K := spec_template)
                  (brts_collection quoted_stub quoted_docs)
                  "What is BRTS?" PyNone (stub_world quoted_stub with_key 0)
    = __generate_answer (X := quoted_stub) sanitized_prompt
        (stub_world_at quoted_stub with_key 1
           [EvQuery ["What is BRTS?"] 5;
            EvConfigure "k-123";
            EvEmbedContent "models/embedding-001" ["What is BRTS?"]
                           "retrieval_document" "Custom query"]) /\
  fill "What is BRTS?"
       (escape (fold_right append EmptyString quoted_docs)) (py_str PyNone)
       (TField "relevant_passage")
    = "Bhopals buses BRTS runs".
Proof.
  destruct (passage_block_sanitized (X := quoted_stub) (K := spec_template)
              (brts_collection quoted_stub quoted_docs) "What is BRTS?"
              PyNone (stub_world quoted_stub with_key 0)
              (stub_world_at quoted_stub with_key 1
                 [EvQuery ["What is BRTS?"] 5;
                  EvConfigure "k-123";
                  EvEmbedContent "models/embedding-001" ["What is BRTS?"]
                                 "retrieval_document" "Custom query"])
              quoted_docs eq_refl) as (_ & _ & _ & _ & H).
  destruct (H sanitized_prompt eq_refl) as (H1 & _ & H3).
  split; [exact H1|]. rewrite H3. reflexivity.
Defined.

Lemma credential_check_witness :
  GeminiEmbeddingFunction__call__ (X := brts_stub) ["What is BRTS?"]
                               (stub_world brts_stub [] 0)
    = (Raise (ValueError missing_key_message), stub_world brts_stub [] 0) /\
  __generate_answer (X := brts_stub) brts_prompt
                        (stub_world brts_stub [("GEMINI_API_KEY", EmptyString)] 0)
    = (Raise (ValueError missing_key_message),
       stub_world brts_stub [("GEMINI_API_KEY", EmptyString)] 0) /\
  GeminiEmbeddingFunction__call__ (X := brts_stub) ["What is BRTS?"]
                               (stub_world brts_stub with_key 0)
    = (Ok [1%Z],
       (stub_world_at brts_stub with_key 1
          ([EvConfigure "k-123";
                    EvEmbedContent "models/embedding-001" ["What is BRTS?"]
                                   "retrieval_document" "Custom query"]))).
Proof.
  split; [|split].
  - apply (proj1 (credential_check (X := brts_stub) ["What is BRTS?"]
                    brts_prompt (stub_world brts_stub [] 0))).
    left. reflexivity.
  - apply (proj1 (credential_check (X := brts_stub) ["What is BRTS?"]
                    brts_prompt
                    (stub_world brts_stub
                                [("GEMINI_API_KEY", EmptyString)] 0))).
    right. reflexivity.
  - apply (proj2 (credential_check (X := brts_stub) ["What is BRTS?"]
                    brts_prompt (stub_world brts_stub with_key 0))
                 "k-123"); [reflexivity | discriminate].
Defined.


Lemma failure_propagation_witness :
  ask_question (X := empty_store_stub) (K := spec_template) "What is BRTS?"
               PyNone (stub_world empty_store_stub with_key 0)
    = (Raise (ValueError "Collection does not exist."),
       stub_world_at empty_store_stub with_key 0
         [EvPersistentClient "./chroma";
          EvGetCollection "chatbot_rag_collection"]) /\
  ask_question (X := brts_stub) (K := spec_template) "What is BRTS?" PyNone
               (stub_world brts_stub [] 0)
    = (Raise (ValueError missing_key_message),
       stub_world_at brts_stub [] 0
         [EvPersistentClient "./chroma";
          EvGetCollection "chatbot_rag_collection";
          EvQuery ["What is BRTS?"] 5]) /\
  ask_question (X := brts_stub) (K := bad_template) "What is BRTS?" PyNone
               (stub_world brts_stub with_key 0)
    = (Raise (KeyError "question"),
       stub_world_at brts_stub with_key 1
         [EvPersistentClient "./chroma";
          EvGetCollection "chatbot_rag_collection";
          EvQuery ["What is BRTS?"] 5;
          EvConfigure "k-123";
          EvEmbedContent "models/embedding-001" ["What is BRTS?"]
                         "retrieval_document" "Custom query"]).
Proof.
  split; [|split].
  - apply (proj1 (failure_propagation (X := empty_store_stub)
                    (K := spec_template) "What is BRTS?" PyNone
                    (stub_world empty_store_stub with_key 0)
                    (ValueError "Collection does not exist.")) _ eq_refl).
  - apply (proj1 (proj2 (failure_propagation (X := brts_stub)
                    (K := spec_template) "What is BRTS?" PyNone
                    (stub_world brts_stub [] 0)
                    (ValueError missing_key_message)))
                 (brts_collection brts_stub brts_docs)
                 (stub_world_at brts_stub [] 0
                    [EvPersistentClient "./chroma";
                     EvGetCollection "chatbot_rag_collection"])
                 _ eq_refl eq_refl).
  - apply (proj1 (proj2 (proj2 (failure_propagation (X := brts_stub)
                    (K := bad_template) "What is BRTS?" PyNone
                    (stub_world brts_stub with_key 0)
                    (KeyError "question"))))
                 (brts_collection brts_stub brts_docs)
                 (stub_world_at brts_stub with_key 0
                    [EvPersistentClient "./chroma";
                     EvGetCollection "chatbot_rag_collection"])
                 brts_docs _ eq_refl eq_refl eq_refl).
Defined.

Lemma brts_end_to_end_witness :
  exists answer w',
    ask_question_default (X := brts_stub) (K := spec_template)
                         "What is BRTS?" (stub_world brts_stub with_key 0)
      = (Ok answer, w') /\
    Substring "What is BRTS?" answer /\
    Substring
      "BRTS stands for Bus Rapid Transit System.It started in Bhopal in 2013."
      answer.
Proof.
  destruct (brts_end_to_end spec_template with_key "k-123" 0)
    as (answer & w' & H1 & H2 & H3 & _).
  - reflexivity.
  - discriminate.
  - reflexivity.
  - unfold template_tokens. cbn. tauto.
  - unfold template_tokens. cbn. tauto.
  - exists answer, w'. repeat split; assumption.
Defined.


Lemma answer_is_model_text_witness :
  fst (ask_question (X := brts_stub) (K := spec_template) "What is BRTS?"
                    PyNone (stub_world brts_stub with_key 0))
    = Ok brts_prompt.
Proof.
  apply (proj1 (answer_is_model_text (X := brts_stub) (K := spec_template)
           "What is BRTS?" PyNone (stub_world brts_stub with_key 0)
           "./chroma" 0 brts_docs 0 "k-123" {| embedding := [1%Z] |} 1
           {| documents := Some [brts_docs] |} 1 brts_docs []
           brts_prompt {| text := Ok brts_prompt |} 2 brts_prompt
           eq_refl eq_refl eq_refl
           (fun H : "k-123" = EmptyString =>
              eq_ind "k-123"
                     (fun s => match s with
                               | EmptyString => False
                               | String _ _ => True
                               end) I EmptyString H)
           eq_refl eq_refl eq_refl eq_refl eq_refl eq_refl)).
Defined.

Lemma query_passed_unchanged_witness :
  (exists rest,
      events (ask_question (X := brts_stub) (K := spec_template)
                           EmptyString PyNone)
             (stub_world brts_stub with_key 0)
        = ([EvPersistentClient "./chroma";
            EvGetCollection "chatbot_rag_collection";
            EvQuery [EmptyString] 5] ++ rest)%list) /\
  In (EvGenerateContent "gemini-1.5-flash" quoted_prompt)
     (trace (snd (ask_question (X := brts_stub) (K := spec_template)
                               quoted_query (PyStr "Rani's stop")
                               (stub_world brts_stub with_key 0)))).
Proof.
  split.
  - apply (proj1 (query_passed_unchanged (X := brts_stub)
                    (K := spec_template) EmptyString PyNone
                    (stub_world brts_stub with_key 0))
                 "./chroma" 0 brts_docs 0 eq_refl eq_refl).
  - apply (proj1 (proj2 (query_passed_unchanged (X := brts_stub)
                    (K := spec_template) quoted_query (PyStr "Rani's stop")
                    (stub_world brts_stub with_key 0)))
                 "./chroma" 0 brts_docs 0 "k-123" {| embedding := [1%Z] |} 1
                 {| documents := Some [brts_docs] |} 1 brts_docs []
                 quoted_prompt {| text := Ok quoted_prompt |} 2 quoted_prompt
                 eq_refl eq_refl eq_refl
                 (fun H : "k-123" = EmptyString =>
                    eq_ind "k-123"
                           (fun s => match s with
                                     | EmptyString => False
                                     | String _ _ => True
                                     end) I EmptyString H)
                 eq_refl eq_refl eq_refl eq_refl eq_refl eq_refl).
Defined.

Lemma default_location_none_witness :
  ask_question_default (X := brts_stub) (K := spec_template) "What is BRTS?"
                       (stub_world brts_stub with_key 0)
    = (Ok brts_prompt,
       stub_world_at brts_stub with_key 2
         [EvPersistentClient "./chroma";
          EvGetCollection "chatbot_rag_collection";
          EvQuery ["What is BRTS?"] 5;
          EvConfigure "k-123";
          EvEmbedContent "models/embedding-001" ["What is BRTS?"]
                         "retrieval_document" "Custom query";
          EvConfigure "k-123";
          EvGenerateContent "gemini-1.5-flash" brts_prompt]) /\
  brts_prompt
    = str_join (map (fill "What is BRTS?" (escape (str_join brts_docs)) "None")
                    (template_tokens (K := spec_template))).
Proof.
  apply (proj1 (proj2 (default_location_none (X := brts_stub)
                         (K := spec_template) "What is BRTS?"
                         (stub_world brts_stub with_key 0)))
               "./chroma" 0 brts_docs 0 "k-123" {| embedding := [1%Z] |} 1
               {| documents := Some [brts_docs] |} 1 brts_docs []
               brts_prompt {| text := Ok brts_prompt |} 2 brts_prompt
               eq_refl eq_refl eq_refl
               (fun H : "k-123" = EmptyString =>
                  eq_ind "k-123"
                         (fun s => match s with
                                   | EmptyString => False
                                   | String _ _ => True
                                   end) I EmptyString H)
               eq_refl eq_refl eq_refl eq_refl eq_refl eq_refl).
Defined.

(** ** Further properties of the sanitization *)

Lemma str_replace_absent (c : ascii) (new s : string) :
  occurs c s = false -> str_replace c new s = s.
Proof.
  induction s as [|d r IH]; simpl; [reflexivity|].
  intros H. apply orb_false_iff in H. destruct H as [Hd Hr].
  rewrite Hd. now rewrite IH.
Qed.

Lemma escape_clean (s : string) :
  occurs apostrophe s = false -> occurs dquote s = false ->
  occurs newline s = false -> escape s = s.
Proof.
  intros Ha Hd Hn. unfold escape.
  rewrite (str_replace_absent apostrophe _ s Ha).
  rewrite (str_replace_absent dquote _ s Hd).
  now rewrite (str_replace_absent newline _ s Hn).
Qed.

Lemma flat_map_chars_append (f : ascii -> string) (a b : string) :
  flat_map_chars f (a ++ b) = flat_map_chars f a ++ flat_map_chars f b.
Proof.
  induction a as [|c r IH]; simpl; [reflexivity|].
  rewrite IH. now rewrite append_assoc'.
Qed.

Lemma escape_append (a b : string) : escape (a ++ b) = escape a ++ escape b.
Proof. rewrite !escape_chars. apply flat_map_chars_append. Qed.

Lemma length_append' (a b : string) :
  String.length (a ++ b) = (String.length a + String.length b)%nat.
Proof. induction a as [|c r IH]; simpl; [reflexivity | now rewrite IH]. Qed.

(** X1.  Sanitizing twice is sanitizing once. *)
Theorem escape_idempotent (s : string) : escape (escape s) = escape s.
Proof.
  apply escape_clean.
  - apply escape_no_apostrophe.
  - apply escape_no_dquote.
  - apply escape_no_newline.
Qed.

(** X2.  Sanitizing the joined block is joining the sanitized passages:
    the result does not depend on where one passage ends and the next
    begins. *)
Theorem escape_join (passages : list string) :
  escape (str_join passages) = str_join (map escape passages).
Proof.
  induction passages as [|a l IH]; [reflexivity|].
  cbn [map]. rewrite !str_join_cons, escape_append, IH. reflexivity.
Qed.

(** X3.  The sanitization leaves a passage block as it is exactly when the
    block holds no single quote, no double quote and no line feed. *)
Theorem escape_unchanged_iff (s : string) :
  escape s = s <->
  occurs apostrophe s = false /\ occurs dquote s = false /\
  occurs newline s = false.
Proof.
  split.
  - intros H. rewrite <- H. repeat split.
    + apply escape_no_apostrophe.
    + apply escape_no_dquote.
    + apply escape_no_newline.
  - intros (Ha & Hd & Hn). now apply escape_clean.
Qed.

(** X4.  The sanitized block is shorter than the block by exactly the number
    of single and double quotes in it; a line feed keeps its place as a
    space. *)
Theorem escape_length (s : string) :
  (String.length (escape s) + count_char apostrophe s + count_char dquote s
   = String.length s)%nat.
Proof.
  induction s as [|c r IH]; [reflexivity|].
  rewrite escape_cons, length_append'. unfold escape_char.
  cbn [count_char String.length].
  destruct (Ascii.eqb c apostrophe) eqn:E1.
  - apply Ascii.eqb_eq in E1. subst c. cbn. lia.
  - destruct (Ascii.eqb c dquote) eqn:E2.
    + cbn. lia.
    + destruct (Ascii.eqb c newline); cbn; lia.
Qed.

(** ** Further properties of the formatter *)

Lemma kw_lookup_unknown (q p : string) (loc : pyval) (name : string) :
  known_field name = false ->
  kw_lookup name [("query", PyStr q); ("relevant_passage", PyStr p);
                  ("current_location", loc)] = None.
Proof.
  unfold known_field, kw_lookup.
  rewrite (String.eqb_sym name "query"),
    (String.eqb_sym name "relevant_passage"),
    (String.eqb_sym name "current_location").
  destruct (String.eqb "query" name); [discriminate|].
  destruct (String.eqb "relevant_passage" name); [discriminate|].
  destruct (String.eqb "current_location" name); [discriminate|].
  reflexivity.
Qed.

Lemma render_kind (q1 p1 q2 p2 : string) (l1 l2 : pyval) (ts : list token) :
  outcome_kind
    (render ts [("query", PyStr q1); ("relevant_passage", PyStr p1);
                ("current_location", l1)])
  = outcome_kind
      (render ts [("query", PyStr q2); ("relevant_passage", PyStr p2);
                  ("current_location", l2)]).
Proof.
  unfold outcome_kind.
  induction ts as [|t ts IH]; [reflexivity|].
  cbn [render].
  destruct t as [s|name|e|]; try reflexivity.
  - destruct (render ts _) as [o1| |]; destruct (render ts _) as [o2| |];
      cbn in IH |- *; congruence.
  - destruct (known_field name) eqn:Kn.
    + destruct (kw_lookup_known q1 p1 l1 name Kn) as [v1 L1].
      destruct (kw_lookup_known q2 p2 l2 name Kn) as [v2 L2].
      rewrite L1, L2.
      destruct (render ts _) as [o1| |]; destruct (render ts _) as [o2| |];
        cbn in IH |- *; congruence.
    + rewrite (kw_lookup_unknown q1 p1 l1 name Kn),
        (kw_lookup_unknown q2 p2 l2 name Kn). reflexivity.
Qed.

Lemma markup_plain (s acc : string) :
  occurs lbrace s = false -> occurs rbrace s = false ->
  markup s (InLit acc) = lit_token (acc ++ s) [].
Proof.
  revert acc. induction s as [|c r IH]; intros acc Hl Hr.
  - cbn [markup]. now rewrite append_empty_r.
  - cbn [occurs] in Hl, Hr.
    apply orb_false_iff in Hl. destruct Hl as [Hl1 Hl2].
    apply orb_false_iff in Hr. destruct Hr as [Hr1 Hr2].
    cbn [markup]. rewrite Hl1, Hr1. rewrite (IH _ Hl2 Hr2).
    unfold snoc. now rewrite append_assoc'.
Qed.

Section Formatter.
Context {K : Constants}.

(** X5.  When the formatter raises at a place of the template that is
    reached through literal text and plain fields (a malformed brace, an
    empty field name, a field name that is not passed), the failure is
    decided by the template alone: the same exception is raised for every
    other query, passage block and location. *)
Theorem format_error_independent (q1 p1 q2 p2 : string) (l1 l2 : pyval)
        (e : exn) :
  make_rag_prompt q1 p1 l1 = Raise e ->
  make_rag_prompt q2 p2 l2 = Raise e.
Proof.
  unfold make_rag_prompt, str_format. intros H.
  pose proof (render_kind q1 (escape p1) q2 (escape p2) l1 l2
                (markup RAG_PROMPT_CONSTANT (InLit EmptyString))) as Hk.
  rewrite H in Hk. unfold outcome_kind in Hk. cbn [result_map] in Hk.
  clear H.
  destruct (render _ _) as [o| |]; simpl in Hk;
    [discriminate Hk | inversion Hk; reflexivity | discriminate Hk].
Qed.

(** X6.  With a template that consists of literal text and plain fields
    named [query], [relevant_passage] or [current_location], the formatter
    returns a prompt for every query, passage block and location, whatever
    characters they hold: the template with its fields filled, the values
    themselves never being read as template text. *)
Theorem format_total_on_plain_fields (query passage : string) (loc : pyval) :
  template_ok = true ->
  make_rag_prompt query passage loc
    = Ok (str_join (map (fill query (escape passage) (py_str loc))
                        template_tokens)).
Proof.
  unfold make_rag_prompt, str_format, template_ok, template_tokens.
  intros H. apply render_ok. exact H.
Qed.

(** X7.  A prompt carries what the template asks for: where the template has
    a [query] field the query occurs in the prompt as given, where it has a
    [relevant_passage] field the sanitized passage block occurs in it, where
    it has a [current_location] field the rendered location occurs in it,
    and every literal run of the template occurs in it. *)
Theorem prompt_contains_fields (query passage : string) (loc : pyval)
        (prompt : string) :
  make_rag_prompt query passage loc = Ok prompt ->
  (In (TField "query") template_tokens -> Substring query prompt) /\
  (In (TField "relevant_passage") template_tokens ->
   Substring (escape passage) prompt) /\
  (In (TField "current_location") template_tokens ->
   Substring (py_str loc) prompt) /\
  (forall s, In (TLit s) template_tokens -> Substring s prompt).
Proof.
  intros H. unfold make_rag_prompt, str_format in H.
  apply render_fill in H. subst prompt. repeat split.
  - intros Hin.
    apply (join_fill_Substring (fill query (escape passage) (py_str loc))
             _ _ Hin).
  - intros Hin.
    apply (join_fill_Substring (fill query (escape passage) (py_str loc))
             _ _ Hin).
  - intros Hin.
    apply (join_fill_Substring (fill query (escape passage) (py_str loc))
             _ _ Hin).
  - intros s Hin.
    apply (join_fill_Substring (fill query (escape passage) (py_str loc))
             _ _ Hin).
Qed.

(** X8.  With a template that holds no brace the prompt is the template
    itself, whatever the query, the passages and the location are. *)
Theorem format_without_fields (query passage : string) (loc : pyval) :
  occurs lbrace RAG_PROMPT_CONSTANT = false ->
  occurs rbrace RAG_PROMPT_CONSTANT = false ->
  make_rag_prompt query passage loc = Ok RAG_PROMPT_CONSTANT.
Proof.
  intros Hl Hr. unfold make_rag_prompt, str_format.
  rewrite (markup_plain _ _ Hl Hr). cbn [append].
  destruct RAG_PROMPT_CONSTANT as [|c r]; [reflexivity|].
  cbn. now rewrite append_empty_r.
Qed.

End Formatter.

(** ** Further properties of the pipeline *)

Section Pipeline.
Context {X : External} {K : Constants}.

Ltac unfold_pipeline :=
  unfold ask_question_default, ask_question, load_chroma_collection,
    chromadb_PersistentClient, Client_get_collection, generate_answer,
    get_relevant_passage, Collection_query, GeminiEmbeddingFunction__call__,
    __generate_answer, genai_configure, genai_embed_content,
    bind, call, log, ret, lift, raise, os_getenv;
  cbn -[make_rag_prompt str_join env_lookup truthy].

Ltac reduce := cbn -[make_rag_prompt str_join env_lookup truthy].

Ltac split_cases :=
  repeat (reduce;
    match goal with
    | |- context [persistent_client ?a ?b] =>
        destruct (persistent_client a b) as [[?| |] ?] eqn:?
    | |- context [get_collection ?a ?b ?c] =>
        destruct (get_collection a b c) as [[?| |] ?] eqn:?
    | |- context [truthy ?v] => destruct (truthy v) eqn:?
    | |- context [embed_content ?a ?b ?c ?d ?e] =>
        destruct (embed_content a b c d e) as [[?| |] ?] eqn:?
    | |- context [nearest ?a ?b ?c ?d] =>
        destruct (nearest a b c d) as [[?| |] ?] eqn:?
    | |- context [first_documents ?r] =>
        destruct (first_documents r) as [?| |] eqn:?
    | |- context [make_rag_prompt ?a ?b ?c] =>
        destruct (make_rag_prompt a b c) as [?| |] eqn:?
    | |- context [generate_content ?a ?b ?c] =>
        destruct (generate_content a b c) as [[?| |] ?] eqn:?
    | |- context [text ?r] => destruct (text r) as [?| |] eqn:?
    end); reduce.

(** X9.  With the collection in place and [GEMINI_API_KEY] absent or empty,
    [ask_question] returns no answer: it ends in an exception after it has
    opened the store, got the collection and asked for the query, and it
    has sent nothing over the network. *)
Theorem ask_question_missing_key (query : string) (loc : pyval) (w : World)
        c x1 h x2 :
  persistent_client "./chroma" (ext w) = (Ok c, x1) ->
  get_collection c "chatbot_rag_collection" x1 = (Ok h, x2) ->
  truthy (env_lookup "GEMINI_API_KEY" (environ w)) = false ->
  (exists e, fst (ask_question query loc w) = Raise e) /\
  (forall answer, fst (ask_question query loc w) <> Ok answer) /\
  snd (ask_question query loc w) =
    {| environ := environ w; ext := x2;
       trace := (trace w ++
         [EvPersistentClient "./chroma";
          EvGetCollection "chatbot_rag_collection";
          EvQuery [query] 5])%list |} /\
  count_events is_network (events (ask_question query loc) w) = 0%nat.
Proof.
  intros H1 H2 Hk.
  assert (Hrun : ask_question query loc w =
    (Raise (ValueError missing_key_message),
     {| environ := environ w; ext := x2;
        trace := (trace w ++
          [EvPersistentClient "./chroma";
           EvGetCollection "chatbot_rag_collection";
           EvQuery [query] 5])%list |})).
  { unfold_pipeline. rewrite H1. reduce. rewrite H2. reduce. rewrite Hk.
    reduce. repeat rewrite <- app_assoc. reflexivity. }
  split; [|split; [|split]].
  - eexists. rewrite Hrun. reflexivity.
  - intros answer. rewrite Hrun. discriminate.
  - rewrite Hrun. reflexivity.
  - unfold events, set_trace. unfold_pipeline.
    rewrite H1. reduce. rewrite H2. reduce. rewrite Hk. reflexivity.
Qed.

(** X10.  One question costs at most two network requests, of which at most
    one goes to the generation model; an answer is returned only after
    exactly one embedding request and exactly one generation request. *)
Theorem network_budget (query : string) (loc : pyval) (w : World) :
  (count_events is_network (events (ask_question query loc) w) <= 2)%nat /\
  (count_events is_generation (events (ask_question query loc) w) <= 1)%nat /\
  (forall answer w',
      ask_question query loc w = (Ok answer, w') ->
      count_events is_network (events (ask_question query loc) w) = 2%nat /\
      count_events is_generation (events (ask_question query loc) w) = 1%nat).
Proof.
  split; [|split].
  - unfold events, set_trace. unfold_pipeline. split_cases;
      unfold count_events; cbn; lia.
  - unfold events, set_trace. unfold_pipeline. split_cases;
      unfold count_events; cbn; lia.
  - intros answer w' H. revert H. unfold events, set_trace. unfold_pipeline.
    split_cases; intros H; try discriminate H; split; reflexivity.
Qed.

(** X11.  A failure of the generation step is the outcome of [ask_question]
    as well, whether the service raises or the response has no text to
    give: the exception reaches the caller unchanged, after the request was
    sent. *)
Theorem generation_failure_propagates (query : string) (loc : pyval)
        (w : World) c x1 h x2 key er x3 qr x4 docs others prompt :
  persistent_client "./chroma" (ext w) = (Ok c, x1) ->
  get_collection c "chatbot_rag_collection" x1 = (Ok h, x2) ->
  env_lookup "GEMINI_API_KEY" (environ w) = Some key ->
  key <> EmptyString ->
  embed_content "models/embedding-001" [query] "retrieval_document"
                "Custom query" x2 = (Ok er, x3) ->
  nearest h (embedding er) 5 x3 = (Ok qr, x4) ->
  documents qr = Some (docs :: others) ->
  make_rag_prompt query (str_join docs) loc = Ok prompt ->
  (forall e x5,
      generate_content "gemini-1.5-flash" prompt x4 = (Raise e, x5) ->
      fst (ask_question query loc w) = Raise e /\
      In (EvGenerateContent "gemini-1.5-flash" prompt)
         (trace (snd (ask_question query loc w)))) /\
  (forall resp e x5,
      generate_content "gemini-1.5-flash" prompt x4 = (Ok resp, x5) ->
      text resp = Raise e ->
      fst (ask_question query loc w) = Raise e /\
      In (EvGenerateContent "gemini-1.5-flash" prompt)
         (trace (snd (ask_question query loc w)))).
Proof.
  intros H1 H2 Hk Hne H3 H4 H5 H6.
  assert (Ht : truthy (Some key) = true)
    by (destruct key; [contradiction | reflexivity]).
  split.
  - intros e x5 H7. unfold_pipeline.
    rewrite H1. reduce. rewrite H2. reduce. rewrite Hk, Ht. reduce.
    rewrite H3. reduce. rewrite H4. unfold first_documents.
    rewrite H5, H6. reduce. rewrite Hk, Ht. reduce. rewrite H7. reduce.
    split; [reflexivity|]. apply in_or_app. right. left. reflexivity.
  - intros resp e x5 H7 H8. unfold_pipeline.
    rewrite H1. reduce. rewrite H2. reduce. rewrite Hk, Ht. reduce.
    rewrite H3. reduce. rewrite H4. unfold first_documents.
    rewrite H5, H6. reduce. rewrite Hk, Ht. reduce. rewrite H7. reduce.
    rewrite H8. reduce.
    split; [reflexivity|]. apply in_or_app. right. left. reflexivity.
Qed.

End Pipeline.

(** ** The further properties at concrete inputs *)

Lemma format_error_independent_witness :
  make_rag_prompt (K := bad_template) quoted_query (str_join quoted_docs)
                  (PyStr "Rani's stop")
    = Raise (KeyError "question").
Proof.
  apply (format_error_independent (K := bad_template)
           "What is BRTS?" (str_join brts_docs)
           quoted_query (str_join quoted_docs) PyNone (PyStr "Rani's stop")
           (KeyError "question") eq_refl).
Defined.

Lemma prompt_contains_fields_witness :
  Substring "What is BRTS?" brts_prompt /\
  Substring
    "BRTS stands for Bus Rapid Transit System.It started in Bhopal in 2013."
    brts_prompt /\
  Substring "None" brts_prompt.
Proof.
  destruct (prompt_contains_fields (K := spec_template) "What is BRTS?"
              (str_join brts_docs) PyNone brts_prompt eq_refl)
    as (Hq & Hp & Hl & _).
  split; [|split].
  - apply Hq. unfold template_tokens. cbn. tauto.
  - apply Hp. unfold template_tokens. cbn. tauto.
  - apply Hl. unfold template_tokens. cbn. tauto.
Defined.

Lemma format_without_fields_witness :
  make_rag_prompt (K := plain_template) quoted_query (str_join quoted_docs)
                  (PyStr "Rani's stop")
    = Ok "Answer questions about the Bhopal BRTS.".
Proof.
  apply (format_without_fields (K := plain_template) quoted_query
           (str_join quoted_docs) (PyStr "Rani's stop") eq_refl eq_refl).
Defined.

Lemma ask_question_missing_key_witness :
  (forall answer,
      fst (ask_question (X := brts_stub) (K := spec_template)
             "What is BRTS?" PyNone
             (stub_world brts_stub [("GEMINI_API_KEY", EmptyString)] 0))
        <> Ok answer) /\
  snd (ask_question (X := brts_stub) (K := spec_template) "What is BRTS?"
         PyNone (stub_world brts_stub [("GEMINI_API_KEY", EmptyString)] 0))
    = stub_world_at brts_stub [("GEMINI_API_KEY", EmptyString)] 0
        [EvPersistentClient "./chroma";
         EvGetCollection "chatbot_rag_collection";
         EvQuery ["What is BRTS?"] 5].
Proof.
  destruct (ask_question_missing_key (X := brts_stub) (K := spec_template)
              "What is BRTS?" PyNone
              (stub_world brts_stub [("GEMINI_API_KEY", EmptyString)] 0)
              "./chroma" 0 brts_docs 0 eq_refl eq_refl eq_refl)
    as (_ & Hno & Hw & _).
  split; [exact Hno | exact Hw].
Defined.

Lemma network_budget_witness :
  count_events is_network
    (events (ask_question (X := brts_stub) (K := spec_template)
                          "What is BRTS?" PyNone)
            (stub_world brts_stub with_key 0)) = 2%nat /\
  count_events is_generation
    (events (ask_question (X := brts_stub) (K := spec_template)
                          "What is BRTS?" PyNone)
            (stub_world brts_stub with_key 0)) = 1%nat.
Proof.
  apply (proj2 (proj2 (network_budget (X := brts_stub) (K := spec_template)
                         "What is BRTS?" PyNone
                         (stub_world brts_stub with_key 0)))
               brts_prompt
               (stub_world_at brts_stub with_key 2
                  [EvPersistentClient "./chroma";
                   EvGetCollection "chatbot_rag_collection";
                   EvQuery ["What is BRTS?"] 5;
                   EvConfigure "k-123";
                   EvEmbedContent "models/embedding-001" ["What is BRTS?"]
                                  "retrieval_document" "Custom query";
                   EvConfigure "k-123";
                   EvGenerateContent "gemini-1.5-flash" brts_prompt])
               eq_refl).
Defined.

Lemma generation_failure_propagates_witness :
  fst (ask_question (X := refuse_stub) (K := spec_template) "What is BRTS?"
                    PyNone (stub_world refuse_stub with_key 0))
    = Raise (LibraryError "generation refused") /\
  fst (ask_question (X := no_text_stub) (K := spec_template) "What is BRTS?"
                    PyNone (stub_world no_text_stub with_key 0))
    = Raise (ValueError "response has no text part").
Proof.
  split.
  - apply (proj1 (proj1 (generation_failure_propagates (X := refuse_stub)
             (K := spec_template) "What is BRTS?" PyNone
             (stub_world refuse_stub with_key 0)
             "./chroma" 0 brts_docs 0 "k-123" {| embedding := [1%Z] |} 1
             {| documents := Some [brts_docs] |} 1 brts_docs [] brts_prompt
             eq_refl eq_refl eq_refl
             (fun H : "k-123" = EmptyString =>
                eq_ind "k-123"
                       (fun s => match s with
                                 | EmptyString => False
                                 | String _ _ => True
                                 end) I EmptyString H)
             eq_refl eq_refl eq_refl eq_refl)
           (LibraryError "generation refused") 2 eq_refl)).
  - apply (proj1 (proj2 (generation_failure_propagates (X := no_text_stub)
             (K := spec_template) "What is BRTS?" PyNone
             (stub_world no_text_stub with_key 0)
             "./chroma" 0 brts_docs 0 "k-123" {| embedding := [1%Z] |} 1
             {| documents := Some [brts_docs] |} 1 brts_docs [] brts_prompt
             eq_refl eq_refl eq_refl
             (fun H : "k-123" = EmptyString =>
                eq_ind "k-123"
                       (fun s => match s with
                                 | EmptyString => False
                                 | String _ _ => True
                                 end) I EmptyString H)
             eq_refl eq_refl eq_refl eq_refl)
           {| text := Raise (ValueError "response has no text part") |}
           (ValueError "response has no text part") 2 eq_refl eq_refl)).
Defined.

Lemma format_total_on_plain_fields_witness :
  make_rag_prompt (K := spec_template) "What is BRTS?" (str_join quoted_docs)
                  PyNone
    = Ok (str_join
            (map (fill "What is BRTS?" (escape (str_join quoted_docs))
                       (py_str PyNone))
                 (template_tokens (K := spec_template)))).
Proof.
  apply (format_total_on_plain_fields (K := spec_template) "What is BRTS?"
           (str_join quoted_docs) PyNone eq_refl).
Defined.
